(** * VtpBackend: the web-api backend of the VTP spring demo

    A shallow embedding of [src/vtp/web/api/backend.py].  The module is
    a thin gateway: every endpoint first reads the class attribute
    [_MOCK_MODE] and then either answers from static mock data or calls
    into the VoteTrackerPlus package ([vtp.core.common.Common] and the
    [vtp.ops] operation classes).

    The VoteTrackerPlus package is not part of this repository; its
    calls are kept symbolic ([vtp_call]) and interpreted by a handler
    that is a parameter of the development ([Platform]).  Gateway code is written in
    a state-and-exception monad over the mock flag, the external world
    and a trace of everything the gateway did. *)

From stdpp Require Import base option list strings gmap.
From Stdlib Require Import ZArith Ascii.

Open Scope Z_scope.
Open Scope string_scope.
Set Warnings "-register-all".

(** ** Python values *)

(** The values that cross the gateway: JSON documents ([dict], [list],
    [str], [int], [bool], [None]), tuples, and instances of the
    operation classes. *)
Inductive value : Type :=
| VNone
| VBool (b : bool)
| VInt (n : Z)
| VStr (s : string)
| VList (items : list value)
| VTuple (items : list value)
| VDict (d : gmap string value)
| VObject (class : string) (attrs : gmap string value).

(** ** Exceptions *)

(** Exceptions are classified by where they are raised.  [vtp_exn] is
    the type of the exceptions raised inside VoteTrackerPlus. *)
Inductive exn (vtp_exn : Type) : Type :=
| KeyError (key : string)          (* [d[key]] on a dict without [key] *)
| OSError (filename : string)      (* [open(filename, "r")] failed *)
| JSONDecodeError (filename : string)  (* [json.load] rejected the file *)
| CsvError (filename : string)     (* [csv.reader] rejected the file *)
| VtpError (e : vtp_exn).          (* raised by a VoteTrackerPlus call *)
Arguments KeyError {vtp_exn} key.
Arguments OSError {vtp_exn} filename.
Arguments JSONDecodeError {vtp_exn} filename.
Arguments CsvError {vtp_exn} filename.
Arguments VtpError {vtp_exn} e.

(** ** Calls into VoteTrackerPlus *)

(** One constructor per call site of the source; keyword arguments keep
    their names.  [self] is the operation instance a constructor
    returned. *)
Inductive vtp_call : Type :=
| Common_get_generic_ro_edf_dir
| Common_get_guid_based_edf_dir (guid : value)
| SetupVtpDemoOperation (election_data_dir verbosity : value)
| SetupVtpDemoOperation_run (self guid_client_store : value)
| SetupVtpDemoOperation_get_all_guid_workspaces
| CastBallotOperation (election_data_dir verbosity : value)
| CastBallotOperation_run (self an_address return_bb : value)
| AcceptBallotOperation (election_data_dir verbosity : value)
| AcceptBallotOperation_run (self cast_ballot_json merge_contests : value)
| VerifyBallotReceiptOperation (election_data_dir : value)
| VerifyBallotReceiptOperation_run (self receipt_data row cvr : value)
| TallyContestsOperation (election_data_dir verbosity : value)
| TallyContestsOperation_run (self contest_uid track_contests : value).

(** [Common.get_guid_based_edf_dir] is the Workspace Directory's
    resolution. *)
Definition is_resolve (c : vtp_call) : bool :=
  match c with Common_get_guid_based_edf_dir _ => true | _ => false end.

(** The [run] methods are the delegated backing-store operations. *)
Definition is_run (c : vtp_call) : bool :=
  match c with
  | SetupVtpDemoOperation_run _ _
  | CastBallotOperation_run _ _ _
  | AcceptBallotOperation_run _ _ _
  | VerifyBallotReceiptOperation_run _ _ _ _
  | TallyContestsOperation_run _ _ _ => true
  | _ => false
  end.

(** The calls that do the work of an operation: the [run] methods and
    the directory-wide enumeration. *)
Definition is_operation (c : vtp_call) : bool :=
  match c with
  | SetupVtpDemoOperation_get_all_guid_workspaces => true
  | _ => is_run c
  end.

(** The calls [get_empty_ballot] makes. *)
Definition is_blank_ballot_call (c : vtp_call) : bool :=
  match c with
  | Common_get_guid_based_edf_dir _
  | CastBallotOperation _ _
  | CastBallotOperation_run _ _ _ => true
  | _ => false
  end.

(** The first of [keys] that the dict [d] does not have. *)
Fixpoint first_missing (keys : list string) (d : gmap string value) : option string :=
  match keys with
  | [] => None
  | k :: keys' =>
      match d !! k with
      | None => Some k
      | Some _ => first_missing keys' d
      end
  end.

(** The workspace an operation class is instantiated on. *)
Definition election_data_dir_of (c : vtp_call) : option value :=
  match c with
  | SetupVtpDemoOperation edf _
  | CastBallotOperation edf _
  | AcceptBallotOperation edf _
  | VerifyBallotReceiptOperation edf
  | TallyContestsOperation edf _ => Some edf
  | _ => None
  end.

(** The instance a [run] method is called on. *)
Definition self_of (c : vtp_call) : option value :=
  match c with
  | SetupVtpDemoOperation_run self _
  | CastBallotOperation_run self _ _
  | AcceptBallotOperation_run self _ _
  | VerifyBallotReceiptOperation_run self _ _ _
  | TallyContestsOperation_run self _ _ => Some self
  | _ => None
  end.

(** ** backend demo constants *)

Module VtpBackend.

Definition _MOCK_BLANK_BALLOT : string := "mock-data/blank-ballot.json".
Definition _MOCK_CAST_BALLOT : string := "mock-data/cast-ballot.json".
Definition _MOCK_BALLOT_CHECK : string := "mock-data/receipts.26.csv".
Definition _MOCK_VOTER_INDEX : Z := 26.
Definition _MOCK_GUID : string := "01d963fd74100ee3f36428740a8efd8afd781839".
Definition _MOCK_VERIFY_BALLOT_RECEIPT_LOG : string := "Hello World".
Definition _MOCK_TALLY_CONTESTS_LOG : string := "Good Morning".
Definition _VERBOSITY : Z := 3.
Definition _ADDRESS : string := "123, Main Street, Concord, Massachusetts".

(** *** The world outside the gateway *)

(** [W] is the state of everything outside the module (the file system
    with the mock data, the ElectionData deployment behind
    VoteTrackerPlus); [vtp_exn] the exceptions VoteTrackerPlus raises. *)
Class Platform (W vtp_exn : Type) : Type := {
  (** [open(path, "r", encoding="utf8")] and reading the file: the text
      of the file, or [None] when it cannot be opened. *)
  read_text : W -> string -> option string;
  (** [json.load] on the text of a file *)
  json_loads : string -> option value;
  (** [list(csv.reader(...))] on the text of a file *)
  csv_rows : string -> option (list (list string));
  (** The VoteTrackerPlus package: a call returns or raises, and may
      change the world. *)
  vtp : vtp_call -> W -> (vtp_exn + value) * W
}.

(** What the gateway did, in order. *)
Inductive event (vtp_exn : Type) : Type :=
| EvMockMode (b : bool)                          (* read [_MOCK_MODE] *)
| EvOpen (filename : string)                     (* opened a mock file *)
| EvCall (c : vtp_call) (r : vtp_exn + value).   (* called VoteTrackerPlus *)
Arguments EvMockMode {vtp_exn} b.
Arguments EvOpen {vtp_exn} filename.
Arguments EvCall {vtp_exn} c r.

Record state (W vtp_exn : Type) : Type := mkState {
  _MOCK_MODE : bool;
  world : W;
  trace : list (event vtp_exn)
}.
Arguments mkState {W vtp_exn} _ _ _.
Arguments _MOCK_MODE {W vtp_exn} s.
Arguments world {W vtp_exn} s.
Arguments trace {W vtp_exn} s.

Definition result (vtp_exn A : Type) : Type := (exn vtp_exn + A)%type.

(** The monad of the gateway code: state passing, and an exception
    ends the computation. *)
Definition M (W vtp_exn A : Type) : Type :=
  state W vtp_exn -> result vtp_exn A * state W vtp_exn.

#[global] Instance M_ret {W vtp_exn} : MRet (M W vtp_exn) :=
  fun A a st => (inr a, st).
#[global] Instance M_bind {W vtp_exn} : MBind (M W vtp_exn) :=
  fun A B f m st =>
    match m st with
    | (inr a, st') => f a st'
    | (inl e, st') => (inl e, st')
    end.

Section Gateway.
Context `{Platform W vtp_exn}.

#[local] Abbreviation M := (M W vtp_exn).
#[local] Abbreviation state := (state W vtp_exn).

Definition raise {A} (e : exn vtp_exn) : M A := fun st => (inl e, st).

Definition emit (ev : event vtp_exn) (st : state) : state :=
  mkState (_MOCK_MODE st) (world st) (trace st ++ [ev]).

(** [VtpBackend._MOCK_MODE] *)
Definition mock_mode : M bool :=
  fun st => (inr (_MOCK_MODE st), emit (EvMockMode (_MOCK_MODE st)) st).

(** A VoteTrackerPlus outcome as the caller of the gateway sees it:
    nothing is caught, nothing is wrapped. *)
Definition relay (r : vtp_exn + value) : result vtp_exn value :=
  match r with inl e => inl (VtpError e) | inr v => inr v end.

(** A call into VoteTrackerPlus. *)
Definition invoke (c : vtp_call) : M value :=
  fun st =>
    let '(r, w) := vtp c (world st) in
    (relay r, mkState (_MOCK_MODE st) w (trace st ++ [EvCall c r])).

(** [with open(filename, "r", encoding="utf8") as infile: parse(infile)] *)
Definition with_open {A} (filename : string)
    (parse : string -> option A) (err : string -> exn vtp_exn) : M A :=
  fun st =>
    let st' := emit (EvOpen filename) st in
    match read_text (world st) filename with
    | None => (inl (OSError filename), st')
    | Some text =>
        match parse text with
        | None => (inl (err filename), st')
        | Some a => (inr a, st')
        end
    end.

(** [d[key]] *)
Definition subscript (d : gmap string value) (key : string) : M value :=
  match d !! key with
  | Some v => mret v
  | None => raise (KeyError key)
  end.

(** Endpoint #1 *)
Definition get_vote_store_id : M value :=
  mock ← mock_mode;
  if (mock : bool) then mret (VStr _MOCK_GUID)
  else
    edf ← invoke Common_get_generic_ro_edf_dir;
    operation ← invoke (SetupVtpDemoOperation edf (VInt _VERBOSITY));
    invoke (SetupVtpDemoOperation_run operation (VBool true)).

(** Endpoint #2 *)
Definition get_empty_ballot (vote_store_id : string) : M value :=
  mock ← mock_mode;
  if (mock : bool) then
    json_doc ← with_open _MOCK_BLANK_BALLOT json_loads JSONDecodeError;
    mret json_doc
  else
    edf ← invoke (Common_get_guid_based_edf_dir (VStr vote_store_id));
    operation ← invoke (CastBallotOperation edf (VInt _VERBOSITY));
    invoke (CastBallotOperation_run operation (VStr _ADDRESS) (VBool true)).

(** No mode branch in the source: the call is made in both modes. *)
Definition get_all_guid_workspaces : M value :=
  invoke SetupVtpDemoOperation_get_all_guid_workspaces.

(** Mock only *)
Definition mock_get_cast_ballot : M value :=
  json_doc ← with_open _MOCK_CAST_BALLOT json_loads JSONDecodeError;
  mret json_doc.

Definition csv_doc_value (rows : list (list string)) : value :=
  VList (map (fun row => VList (map VStr row)) rows).

(** Mock only *)
Definition mock_get_ballot_check : M value :=
  csv_doc ← with_open _MOCK_BALLOT_CHECK csv_rows CsvError;
  mret (VTuple [csv_doc_value csv_doc; VInt _MOCK_VOTER_INDEX]).

(** Endpoint #3 *)
Definition cast_ballot (vote_store_id : string)
    (cast_ballot : gmap string value) : M value :=
  mock ← mock_mode;
  if (mock : bool) then mock_get_ballot_check
  else
    edf ← invoke (Common_get_guid_based_edf_dir (VStr vote_store_id));
    operation ← invoke (AcceptBallotOperation edf (VInt _VERBOSITY));
    invoke (AcceptBallotOperation_run operation (VDict cast_ballot) (VBool true)).

(** Endpoint #4 *)
Definition verify_ballot_check (vote_store_id : string)
    (incoming_json : gmap string value) : M value :=
  mock ← mock_mode;
  if (mock : bool) then mret (VStr _MOCK_VERIFY_BALLOT_RECEIPT_LOG)
  else
    edf ← invoke (Common_get_guid_based_edf_dir (VStr vote_store_id));
    operation ← invoke (VerifyBallotReceiptOperation edf);
    receipt_data ← subscript incoming_json "ballot-check";
    row ← subscript incoming_json "vote-index";
    invoke (VerifyBallotReceiptOperation_run operation receipt_data row (VBool true)).

(** Endpoint #5 *)
Definition tally_election_check (vote_store_id : string)
    (incoming_json : gmap string value) : M value :=
  mock ← mock_mode;
  if (mock : bool) then mret (VStr _MOCK_TALLY_CONTESTS_LOG)
  else
    edf ← invoke (Common_get_guid_based_edf_dir (VStr vote_store_id));
    verbosity ← subscript incoming_json "verbosity";
    operation ← invoke (TallyContestsOperation edf verbosity);
    contest_uid ← subscript incoming_json "contest-uids";
    track_contests ← subscript incoming_json "track-contests";
    invoke (TallyContestsOperation_run operation contest_uid track_contests).

(** ** Sequences of requests *)

(** One invocation of a public operation of the class. *)
Inductive request : Type :=
| GetVoteStoreId
| GetEmptyBallot (vote_store_id : string)
| GetAllGuidWorkspaces
| CastBallot (vote_store_id : string) (cast_ballot : gmap string value)
| VerifyBallotCheck (vote_store_id : string) (incoming_json : gmap string value)
| TallyElectionCheck (vote_store_id : string) (incoming_json : gmap string value).

Definition serve (rq : request) : M value :=
  match rq with
  | GetVoteStoreId => get_vote_store_id
  | GetEmptyBallot g => get_empty_ballot g
  | GetAllGuidWorkspaces => get_all_guid_workspaces
  | CastBallot g b => cast_ballot g b
  | VerifyBallotCheck g j => verify_ballot_check g j
  | TallyElectionCheck g j => tally_election_check g j
  end.

(** The keys an endpoint subscripts in the caller's mapping, in the
    order of the subscripts. *)
Definition required_keys (rq : request) : list string :=
  match rq with
  | VerifyBallotCheck _ _ => ["ballot-check"; "vote-index"]
  | TallyElectionCheck _ _ => ["verbosity"; "contest-uids"; "track-contests"]
  | _ => []
  end.

Definition incoming_json_of (rq : request) : gmap string value :=
  match rq with
  | VerifyBallotCheck _ j | TallyElectionCheck _ j => j
  | _ => ∅
  end.

(** The five numbered endpoints; [get_all_guid_workspaces] is the one
    public method without a number. *)
Definition is_endpoint (rq : request) : bool :=
  match rq with GetAllGuidWorkspaces => false | _ => true end.

(** The process serves the requests one after the other; a request
    that raises does not stop the process. *)
Fixpoint serve_all (rqs : list request) (st : state)
    : list (result vtp_exn value) * state :=
  match rqs with
  | [] => ([], st)
  | rq :: rqs' =>
      let '(r, st') := serve rq st in
      let '(rs, st'') := serve_all rqs' st' in
      (r :: rs, st'')
  end.

(** The call that yields the workspace of an endpoint: the generic
    read-only one for [get_vote_store_id], the one of the session
    identifier for the other four. *)
Definition workspace_call (rq : request) : option vtp_call :=
  match rq with
  | GetVoteStoreId => Some Common_get_generic_ro_edf_dir
  | GetEmptyBallot g | CastBallot g _ | VerifyBallotCheck g _
  | TallyElectionCheck g _ => Some (Common_get_guid_based_edf_dir (VStr g))
  | GetAllGuidWorkspaces => None
  end.

(** What a process whose flag is [m] may do: read that flag; open the
    blank-ballot or the receipts file, in mock mode only; call
    VoteTrackerPlus, which in mock mode is left to the enumeration. *)
Definition session_event_ok (m : bool) (ev : event vtp_exn) : Prop :=
  match ev with
  | EvMockMode b => b = m
  | EvOpen filename =>
      m = true /\
      (filename = _MOCK_BLANK_BALLOT \/ filename = _MOCK_BALLOT_CHECK)
  | EvCall c _ =>
      m = false \/ c = SetupVtpDemoOperation_get_all_guid_workspaces
  end.

(** The events an operation appended to the trace. *)
Definition calls_of (tr : list (event vtp_exn)) : list vtp_call :=
  omap (fun ev => match ev with EvCall c _ => Some c | _ => None end) tr.

(** The events a run appended to the trace of [st]. *)
Definition new_events (st st' : state) : list (event vtp_exn) :=
  drop (length (trace st)) (trace st').

End Gateway.
End VtpBackend.

(** ** A small deployment *)

(** A concrete world to run the gateway in: a file system and a guid
    workspace directory that behaves as the VoteTrackerPlus operations
    are documented to. *)
Module Deployment.
Import VtpBackend.

Record store : Type := mkStore {
  files : gmap string string;     (* path -> text of the file *)
  workspaces : list string;       (* guid workspaces, newest first *)
  unused : list string;           (* guids of the workspaces to come *)
  ballots : list value            (* accepted ballots, newest first *)
}.

Inductive store_exn : Type :=
| UnknownSession (guid : value)   (* the guid has no workspace *)
| OutOfGuids.                     (* no workspace can be provisioned *)

Definition instance_of (class : string) (attrs : list (string * value)) : value :=
  VObject class (list_to_map attrs).

Definition blank_ballot : value :=
  VDict (list_to_map
    [("active_ggos", VList [VStr "."; VStr "GGOs/states/Massachusetts"]);
     ("contests", VDict ∅)]).

Definition ballot_check (n : nat) : value :=
  VTuple [VList [VList [VStr "0001"; VStr "0002"]]; VInt (Z.of_nat n)].

Definition store_vtp (c : vtp_call) (w : store) : (store_exn + value) * store :=
  match c with
  | Common_get_generic_ro_edf_dir =>
      (inr (VStr "/opt/VoteTrackerPlus/demo.01/mock-clients"), w)
  | Common_get_guid_based_edf_dir guid =>
      match guid with
      | VStr g =>
          if bool_decide (g ∈ workspaces w)
          then (inr (VStr ("/opt/VoteTrackerPlus/demo.01/guid-client-store/" ++ g)), w)
          else (inl (UnknownSession guid), w)
      | _ => (inl (UnknownSession guid), w)
      end
  | SetupVtpDemoOperation edf verbosity =>
      (inr (instance_of "SetupVtpDemoOperation"
              [("election_data_dir", edf); ("verbosity", verbosity)]), w)
  | SetupVtpDemoOperation_run _ _ =>
      match unused w with
      | [] => (inl OutOfGuids, w)
      | g :: gs =>
          (inr (VStr g), mkStore (files w) (g :: workspaces w) gs (ballots w))
      end
  | SetupVtpDemoOperation_get_all_guid_workspaces =>
      (inr (VList (VStr <$> workspaces w)), w)
  | CastBallotOperation edf verbosity =>
      (inr (instance_of "CastBallotOperation"
              [("election_data_dir", edf); ("verbosity", verbosity)]), w)
  | CastBallotOperation_run _ _ _ => (inr blank_ballot, w)
  | AcceptBallotOperation edf verbosity =>
      (inr (instance_of "AcceptBallotOperation"
              [("election_data_dir", edf); ("verbosity", verbosity)]), w)
  | AcceptBallotOperation_run _ cast_ballot_json _ =>
      (inr (ballot_check (length (ballots w))),
       mkStore (files w) (workspaces w) (unused w) (cast_ballot_json :: ballots w))
  | VerifyBallotReceiptOperation edf =>
      (inr (instance_of "VerifyBallotReceiptOperation"
              [("election_data_dir", edf)]), w)
  | VerifyBallotReceiptOperation_run _ _ _ _ => (inr (VStr "receipt verified"), w)
  | TallyContestsOperation edf verbosity =>
      (inr (instance_of "TallyContestsOperation"
              [("election_data_dir", edf); ("verbosity", verbosity)]), w)
  | TallyContestsOperation_run _ _ _ => (inr (VStr "contests tallied"), w)
  end.

(** Text up to the first [sep], and what follows it. *)
Fixpoint split_at (sep : Ascii.ascii) (s : string) : string * option string :=
  match s with
  | EmptyString => (EmptyString, None)
  | String a s' =>
      if Ascii.eqb a sep then (EmptyString, Some s')
      else let '(h, t) := split_at sep s' in (String a h, t)
  end.

Fixpoint split_on (fuel : nat) (sep : Ascii.ascii) (s : string) : list string :=
  match fuel with
  | O => [s]
  | S fuel' =>
      match split_at sep s with
      | (h, None) => [h]
      | (h, Some t) => h :: split_on fuel' sep t
      end
  end.

(** Comma-separated fields, one row per line, no quoting. *)
Definition store_csv_rows (text : string) : option (list (list string)) :=
  Some ((fun line => split_on (String.length line) "," line)
          <$> split_on (String.length text) "010"%char text).

(** Only the documents the examples need. *)
Definition store_json_loads (text : string) : option value :=
  if bool_decide (text = "{}") then Some (VDict ∅)
  else if bool_decide (text = "[]") then Some (VList [])
  else None.

#[global] Instance store_platform : Platform store store_exn := {|
  read_text w filename := files w !! filename;
  json_loads := store_json_loads;
  csv_rows := store_csv_rows;
  vtp := store_vtp
|}.

(** The guid with a workspace in [town], and a session identifier
    without one. *)
Definition resident : string := "7a1f00c2d3e4f5a6b7c8d9e0f1a2b3c4d5e6f708".
Definition stranger : string := "ffffffffffffffffffffffffffffffffffffffff".

Definition resident_edf : value :=
  VStr "/opt/VoteTrackerPlus/demo.01/guid-client-store/7a1f00c2d3e4f5a6b7c8d9e0f1a2b3c4d5e6f708".

(** A deployment with the mock data checked in, one guid workspace and
    one guid left to issue. *)
Definition town : store := {|
  files := list_to_map
    [(_MOCK_BLANK_BALLOT, "{}");
     (_MOCK_BALLOT_CHECK, "a,b" ++ String "010"%char "c,d")];
  workspaces := [resident];
  unused := ["c0ffee11c0ffee22c0ffee33c0ffee44c0ffee55"];
  ballots := []
|}.

(** The same deployment without any guid workspace. *)
Definition empty_town : store :=
  mkStore (files town) [] (unused town) [].

Definition torn_town : store :=
  mkStore (list_to_map [(_MOCK_BLANK_BALLOT, "{"); (_MOCK_CAST_BALLOT, "[]")])
    [resident] [] [].

(** Mappings a caller may send: a receipt, the same receipt with an
    entry nobody asked for, and a tally request. *)
Definition receipt_json : gmap string value :=
  list_to_map
    [("ballot-check", VList [VList [VStr "0001"; VStr "0002"]]);
     ("vote-index", VInt 0)].
Definition padded_receipt_json : gmap string value :=
  <["voter" := VStr "anonymous"]> receipt_json.
Definition tally_json : gmap string value :=
  list_to_map
    [("verbosity", VInt 1); ("contest-uids", VList [VStr "0001"]);
     ("track-contests", VBool false)].

Definition live (w : store) : state store store_exn := mkState false w [].
Definition mock (w : store) : state store store_exn := mkState true w [].

End Deployment.

(** * Properties of the gateway *)

Import VtpBackend.

Section Properties.
Context `{Platform W vtp_exn}.

#[local] Abbreviation state := (state W vtp_exn).

Implicit Types (st : state) (vote_store_id guid : string).
Implicit Types (incoming_json cast_ballot_json : gmap string value).

(** ** Proof support *)

Lemma new_events_app st m w evs :
  new_events st (mkState m w (trace st ++ evs)) = evs.
Proof. unfold new_events; simpl. apply drop_app_length. Qed.

Ltac unfold_gateway :=
  unfold serve, get_vote_store_id, get_empty_ballot, get_all_guid_workspaces,
    cast_ballot, verify_ballot_check, tally_election_check,
    mock_get_cast_ballot, mock_get_ballot_check,
    mbind, M_bind, mret, M_ret, mock_mode, invoke, with_open, subscript,
    raise, emit in *.

Ltac step_vtp :=
  match goal with
  | |- context [vtp ?c ?w] =>
      let e := fresh "e" in let v := fresh "v" in
      let w' := fresh "w" in let E := fresh "E" in
      destruct (vtp c w) as [[e|v] w'] eqn:E; simpl in *
  end.

Ltac step_key :=
  match goal with
  | |- context [@lookup string value _ _ ?k ?d] =>
      let x := fresh "x" in let K := fresh "K" in
      destruct (d !! k) as [x|] eqn:K; simpl in *
  end.

Ltac step_file :=
  match goal with
  | |- context [read_text ?w ?f] =>
      let t := fresh "text" in
      destruct (read_text w f) as [t|]; simpl in *
  | |- context [json_loads ?t] => destruct (json_loads t); simpl in *
  | |- context [csv_rows ?t] => destruct (csv_rows t); simpl in *
  end.

Ltac tidy_trace :=
  repeat rewrite <- app_assoc; simpl;
  repeat rewrite new_events_app.

(** ** The mock flag *)

Lemma serve_mock_mode rq st : _MOCK_MODE (serve rq st).2 = _MOCK_MODE st.
Proof.
  destruct rq; unfold_gateway; simpl;
    destruct (_MOCK_MODE st) eqn:Hm; simpl;
    repeat first [ step_vtp | step_key | step_file ]; auto.
Qed.

Lemma serve_all_mock_mode rqs : forall st,
  _MOCK_MODE (serve_all rqs st).2 = _MOCK_MODE st.
Proof.
  induction rqs as [|rq rqs IH]; intros st; simpl; [reflexivity|].
  destruct (serve rq st) as [r st1] eqn:E1.
  destruct (serve_all rqs st1) as [rs st2] eqn:E2; simpl.
  specialize (IH st1). rewrite E2 in IH. simpl in IH. rewrite IH.
  pose proof (serve_mock_mode rq st) as Hs. rewrite E1 in Hs. exact Hs.
Qed.

Lemma endpoint_reads_mock_mode_first rq st :
  is_endpoint rq = true ->
  exists evs, new_events st (serve rq st).2 = EvMockMode (_MOCK_MODE st) :: evs.
Proof.
  intros Hrq. destruct rq; try discriminate; unfold_gateway; simpl;
    destruct (_MOCK_MODE st) eqn:Hm; simpl;
    repeat first [ step_vtp | step_key | step_file ];
    tidy_trace; eauto.
Qed.

(** C8. The mock flag is one boolean of the process state.  Whatever
    sequence of public operations is served, the flag afterwards is the
    flag before: no operation writes it.  Each numbered endpoint reads
    it as the first thing it does, before any file is opened and before
    any call into VoteTrackerPlus; [get_all_guid_workspaces] does no
    routing. *)
Theorem mock_mode_read_first_never_written (rqs : list request) st :
  _MOCK_MODE (serve_all rqs st).2 = _MOCK_MODE st /\
  Forall (fun rq =>
    forall st', is_endpoint rq = true ->
      exists evs,
        new_events st' (serve rq st').2 = EvMockMode (_MOCK_MODE st') :: evs) rqs.
Proof.
  split; [apply serve_all_mock_mode|].
  apply Forall_forall. intros rq _ st' Hrq.
  by apply endpoint_reads_mock_mode_first.
Qed.

(** ** Mock mode *)

(** C2. In mock mode, whatever the arguments: [get_vote_store_id]
    returns the made-up guid, [get_empty_ballot] the parsed
    blank-ballot file, [cast_ballot] the rows of the csv receipt file
    paired with 26 (the caller's ballot is ignored),
    [verify_ballot_check] the string Hello World and
    [tally_election_check] the string Good Morning.  The two mock files
    are assumed to be present and to parse. *)
Theorem mock_mode_answers st text_bb json_doc text_bc csv_doc :
  _MOCK_MODE st = true ->
  read_text (world st) "mock-data/blank-ballot.json" = Some text_bb ->
  json_loads text_bb = Some json_doc ->
  read_text (world st) "mock-data/receipts.26.csv" = Some text_bc ->
  csv_rows text_bc = Some csv_doc ->
  (get_vote_store_id st).1
    = inr (VStr "01d963fd74100ee3f36428740a8efd8afd781839") /\
  (forall guid, (get_empty_ballot guid st).1 = inr json_doc) /\
  (forall guid cast_ballot_json,
     (cast_ballot guid cast_ballot_json st).1
       = inr (VTuple [csv_doc_value csv_doc; VInt 26])) /\
  (forall guid incoming_json,
     (verify_ballot_check guid incoming_json st).1 = inr (VStr "Hello World")) /\
  (forall guid incoming_json,
     (tally_election_check guid incoming_json st).1 = inr (VStr "Good Morning")).
Proof.
  intros Hm Hbb Hjson Hbc Hcsv.
  repeat split; intros; unfold_gateway; simpl; rewrite Hm; simpl;
    unfold _MOCK_BLANK_BALLOT, _MOCK_BALLOT_CHECK;
    rewrite ?Hbb, ?Hbc; simpl; rewrite ?Hjson, ?Hcsv; reflexivity.
Qed.

(** X1. In mock mode each of the five numbered endpoints makes no call
    into VoteTrackerPlus, whatever the session identifier, leaves the
    world as it is, and answers the same in any two worlds whose two
    mock files read the same. *)
Lemma mock_mode_bypass rq st :
  is_endpoint rq = true -> _MOCK_MODE st = true ->
  calls_of (new_events st (serve rq st).2) = [] /\
  world (serve rq st).2 = world st /\
  (forall st2, _MOCK_MODE st2 = true ->
     read_text (world st2) _MOCK_BLANK_BALLOT = read_text (world st) _MOCK_BLANK_BALLOT ->
     read_text (world st2) _MOCK_BALLOT_CHECK = read_text (world st) _MOCK_BALLOT_CHECK ->
     (serve rq st2).1 = (serve rq st).1).
Proof.
  intros Hrq Hm. destruct rq; try discriminate; unfold_gateway; simpl;
    rewrite Hm; simpl.
  all: split; [|split];
    [ repeat step_file; tidy_trace; reflexivity
    | repeat step_file; reflexivity
    | intros st2 Hm2 Hbb Hbc; rewrite Hm2; simpl; rewrite ?Hbb, ?Hbc;
      repeat step_file; reflexivity ].
Qed.

Lemma mock_mode_no_vtp_error rq st e :
  is_endpoint rq = true -> _MOCK_MODE st = true ->
  (serve rq st).1 <> inl (VtpError e).
Proof.
  intros Hrq Hm. destruct rq; try discriminate; unfold_gateway; simpl;
    rewrite Hm; simpl; repeat step_file; discriminate.
Qed.

(** [get_all_guid_workspaces] does the same in both modes: one call of
    the enumeration, whose outcome it returns. *)
Lemma get_all_guid_workspaces_any_mode st :
  calls_of (new_events st (get_all_guid_workspaces st).2)
    = [SetupVtpDemoOperation_get_all_guid_workspaces] /\
  (get_all_guid_workspaces st).1
    = relay (vtp SetupVtpDemoOperation_get_all_guid_workspaces (world st)).1.
Proof.
  unfold_gateway. destruct (vtp _ (world st)) as [r w]; simpl.
  tidy_trace. split; reflexivity.
Qed.

(** ** Live mode *)

(** A failure of the workspace resolution is the failure of the
    endpoint, and nothing is called after it. *)
Lemma unresolved_fails rq st guid e :
  _MOCK_MODE st = false ->
  (vtp (Common_get_guid_based_edf_dir (VStr guid)) (world st)).1 = inl e ->
  match rq with
  | GetEmptyBallot g | CastBallot g _ | VerifyBallotCheck g _
  | TallyElectionCheck g _ => g = guid
  | _ => False
  end ->
  (serve rq st).1 = inl (VtpError e) /\
  calls_of (new_events st (serve rq st).2)
    = [Common_get_guid_based_edf_dir (VStr guid)].
Proof.
  intros Hm Hres Hrq.
  destruct rq; try contradiction; subst; unfold_gateway; simpl;
    rewrite Hm; simpl;
    destruct (vtp _ (world st)) as [[e'|v] w'] eqn:E; simpl in *;
    try discriminate; inversion Hres; subst;
    tidy_trace; split; reflexivity.
Qed.

(** C3. A session identifier that was never issued is one that
    [Common.get_guid_based_edf_dir] does not resolve to a workspace: the
    call raises, and [e] stands for what it raises (UnknownSession).  In
    live mode each of [get_empty_ballot], [cast_ballot],
    [verify_ballot_check] and [tally_election_check] then fails with
    exactly [e].  In mock mode none of them ever fails with an
    exception of VoteTrackerPlus, UnknownSession included. *)
Theorem unknown_session_live_only st guid
    cast_ballot_json incoming_json :
  (forall e,
     _MOCK_MODE st = false ->
     (vtp (Common_get_guid_based_edf_dir (VStr guid)) (world st)).1 = inl e ->
     (get_empty_ballot guid st).1 = inl (VtpError e) /\
     (cast_ballot guid cast_ballot_json st).1 = inl (VtpError e) /\
     (verify_ballot_check guid incoming_json st).1 = inl (VtpError e) /\
     (tally_election_check guid incoming_json st).1 = inl (VtpError e)) /\
  (forall e,
     _MOCK_MODE st = true ->
     (get_empty_ballot guid st).1 <> inl (VtpError e) /\
     (cast_ballot guid cast_ballot_json st).1 <> inl (VtpError e) /\
     (verify_ballot_check guid incoming_json st).1 <> inl (VtpError e) /\
     (tally_election_check guid incoming_json st).1 <> inl (VtpError e)).
Proof.
  split; intros e Hm.
  - intros Hres. repeat split.
    + by apply (unresolved_fails (GetEmptyBallot guid) st guid e).
    + by apply (unresolved_fails (CastBallot guid cast_ballot_json) st guid e).
    + by apply (unresolved_fails (VerifyBallotCheck guid incoming_json) st guid e).
    + by apply (unresolved_fails (TallyElectionCheck guid incoming_json) st guid e).
  - repeat split.
    + by apply (mock_mode_no_vtp_error (GetEmptyBallot guid)).
    + by apply (mock_mode_no_vtp_error (CastBallot guid cast_ballot_json)).
    + by apply (mock_mode_no_vtp_error (VerifyBallotCheck guid incoming_json)).
    + by apply (mock_mode_no_vtp_error (TallyElectionCheck guid incoming_json)).
Qed.

Ltac solve_elem :=
  repeat match goal with
  | Hin : _ ∈ [] |- _ => by apply elem_of_nil in Hin
  | Hin : _ ∈ _ :: _ |- _ =>
      apply elem_of_cons in Hin; destruct Hin as [Hin|Hin];
      [ try discriminate; try (inversion Hin; subst; clear Hin) | ]
  end.

Ltac pick_elem :=
  repeat (apply elem_of_cons; first [ left; reflexivity | right ]).

Ltac solve_nodup :=
  repeat (apply NoDup_cons; split;
          [ let Hin := fresh "Hin" in intros Hin; solve_elem | ]);
  try apply NoDup_nil_2.

(** C4. In live mode every public operation is a relay.  With [r] the
    outcome of the operation and [evs] what it did:
    - an exception raised by any call into VoteTrackerPlus is the
      outcome, unchanged, and that call was the last thing done;
    - whatever the delegated operation ([run], or the enumeration)
      returned or raised is the outcome, unchanged;
    - no call is made twice and the delegated operation runs at most
      once: nothing is retried;
    - a returned value is always the delegated operation's, and the
      only exception that does not come from VoteTrackerPlus is the
      KeyError of subscripting the caller's mapping with a key it
      lacks: the payload is not validated. *)
Theorem live_mode_relay (rq : request) st :
  _MOCK_MODE st = false ->
  let r := (serve rq st).1 in
  let evs := new_events st (serve rq st).2 in
  (forall c e, EvCall c (inl e) ∈ evs ->
     r = inl (VtpError e) /\ last evs = Some (EvCall c (inl e))) /\
  (forall c x, is_operation c = true -> EvCall c x ∈ evs -> r = relay x) /\
  NoDup (calls_of evs) /\
  (length (List.filter is_operation (calls_of evs)) <= 1)%nat /\
  (forall v, r = inr v ->
     exists c, is_operation c = true /\ EvCall c (inr v) ∈ evs) /\
  (forall ex, r = inl ex ->
     (exists c e, ex = VtpError e /\ EvCall c (inl e) ∈ evs) \/
     (exists k, ex = KeyError k /\ k ∈ required_keys rq /\
                incoming_json_of rq !! k = None)).
Proof.
  intros Hm r evs. subst r evs.
  destruct rq; unfold_gateway; simpl; rewrite Hm; simpl;
    repeat first [ step_vtp | step_key ]; tidy_trace.
  all: repeat match goal with |- _ /\ _ => split end.
  all: try solve_nodup.
  all: try (simpl; lia).
  all: try (intros cc ee HHin; solve_elem; split; reflexivity).
  all: try (intros cc xx HHc HHin; solve_elem; simpl in *; congruence).
  all: try (intros vv HHv; discriminate).
  all: try (intros vv HHv; inversion HHv; subst;
            eexists; split; [| pick_elem ]; reflexivity).
  all: intros ex HHex; inversion HHex; subst.
  all: try (left; do 2 eexists; split; [reflexivity|]; pick_elem).
  all: right; eexists; split; [reflexivity|]; split;
         [ simpl; set_solver | simpl; assumption ].
Qed.

(** C5. In live mode [cast_ballot] resolves the workspace of the
    session ([edf]), builds an AcceptBallotOperation on that workspace
    ([operation]) and runs it with the caller's ballot, as it came, and
    [merge_contests=True].  These three calls are all it makes; its
    outcome and the world it leaves are those of the run, so a
    (ballot-check, voter-index) pair returned by the run is returned as
    that pair. *)
Theorem cast_ballot_live st guid cast_ballot_json edf w1 operation w2 :
  _MOCK_MODE st = false ->
  vtp (Common_get_guid_based_edf_dir (VStr guid)) (world st) = (inr edf, w1) ->
  vtp (AcceptBallotOperation edf (VInt 3)) w1 = (inr operation, w2) ->
  let run :=
    AcceptBallotOperation_run operation (VDict cast_ballot_json) (VBool true) in
  calls_of (new_events st (cast_ballot guid cast_ballot_json st).2)
    = [Common_get_guid_based_edf_dir (VStr guid);
       AcceptBallotOperation edf (VInt 3);
       run] /\
  (cast_ballot guid cast_ballot_json st).1 = relay (vtp run w2).1 /\
  world (cast_ballot guid cast_ballot_json st).2 = (vtp run w2).2 /\
  (forall ballot_check voter_index,
     (vtp run w2).1 = inr (VTuple [ballot_check; voter_index]) ->
     (cast_ballot guid cast_ballot_json st).1
       = inr (VTuple [ballot_check; voter_index])).
Proof.
  intros Hm Hres Hop run. subst run.
  unfold_gateway; simpl; rewrite Hm; simpl.
  rewrite Hres; simpl. unfold _VERBOSITY. rewrite Hop; simpl.
  step_vtp; tidy_trace; repeat split; try reflexivity;
    intros bc vi Hrun; inversion Hrun; reflexivity.
Qed.

(** The outcome of [get_empty_ballot] is a function of the mock flag,
    the world and the session identifier. *)
Lemma get_empty_ballot_depends st1 st2 guid :
  _MOCK_MODE st1 = _MOCK_MODE st2 -> world st1 = world st2 ->
  (get_empty_ballot guid st1).1 = (get_empty_ballot guid st2).1.
Proof.
  destruct st1 as [m1 w1 tr1], st2 as [m2 w2 tr2]; simpl.
  intros -> ->. unfold_gateway; simpl.
  destruct m2; simpl; repeat first [ step_file | step_vtp ]; reflexivity.
Qed.

Lemma get_empty_ballot_world st guid :
  (forall c w, is_blank_ballot_call c = true -> (vtp c w).2 = w) ->
  world (get_empty_ballot guid st).2 = world st.
Proof.
  intros Hro. unfold_gateway; simpl.
  destruct (_MOCK_MODE st); simpl; repeat step_file; try reflexivity.
  repeat match goal with
  | |- context [vtp ?c ?w] =>
      let Hw := fresh "Hw" in
      pose proof (Hro c w eq_refl) as Hw;
      destruct (vtp c w) as [[?|?] ?]; simpl in *; subst
  end; reflexivity.
Qed.

(** C6. Two successive calls of [get_empty_ballot] with the same
    session identifier have the same outcome: the same document, or
    the same exception.  In mock mode this needs nothing; in live mode
    it holds when the calls behind the blank ballot (resolving the
    workspace, building the operation, running it) only read the
    ElectionData, which is the assumption. *)
Theorem get_empty_ballot_twice st guid :
  (forall c w, is_blank_ballot_call c = true -> (vtp c w).2 = w) ->
  (get_empty_ballot guid (get_empty_ballot guid st).2).1
    = (get_empty_ballot guid st).1.
Proof.
  intros Hro. apply get_empty_ballot_depends.
  - apply (serve_mock_mode (GetEmptyBallot guid)).
  - by apply get_empty_ballot_world.
Qed.

(** C7. In live mode, once [get_vote_store_id] has returned a guid,
    the next [get_all_guid_workspaces] returns a list with that guid in
    it.  The assumptions are the contract of the two VoteTrackerPlus
    calls over the directory of guid workspaces ([workspaces]): a
    provisioning run registers the guid it returns, and the enumeration
    lists every registered guid. *)
Theorem issued_guid_is_enumerated (workspaces : W -> list string) st guid st' :
  (forall self flag w g w',
     vtp (SetupVtpDemoOperation_run self flag) w = (inr (VStr g), w') ->
     g ∈ workspaces w') ->
  (forall w,
     (vtp SetupVtpDemoOperation_get_all_guid_workspaces w).1
       = inr (VList (VStr <$> workspaces w))) ->
  _MOCK_MODE st = false ->
  get_vote_store_id st = (inr (VStr guid), st') ->
  exists guids,
    (get_all_guid_workspaces st').1 = inr (VList guids) /\ VStr guid ∈ guids.
Proof.
  intros Hrun Henum Hm Hissue.
  exists (VStr <$> workspaces (world st')). split.
  - unfold_gateway. specialize (Henum (world st')).
    destruct (vtp _ (world st')) as [r w']; simpl in *. by rewrite Henum.
  - apply list_elem_of_fmap_2.
    revert Hissue. unfold_gateway; simpl; rewrite Hm; simpl.
    repeat step_vtp; intros Hissue; inversion Hissue; subst; simpl.
    eapply Hrun; eassumption.
Qed.

(** C9. In live mode the calls [get_empty_ballot] makes are fixed by
    the session identifier alone: the workspace of that identifier is
    resolved, the CastBallotOperation is built with verbosity 3 and run
    with the address 123, Main Street, Concord, Massachusetts and
    [return_bb=True].  When the first two calls succeed the outcome is
    the outcome of that run.  Two live states over the same world give
    the same outcome for the same identifier. *)
Theorem get_empty_ballot_live st guid :
  _MOCK_MODE st = false ->
  Forall (fun c =>
      match c with
      | Common_get_guid_based_edf_dir g => g = VStr guid
      | CastBallotOperation _ verbosity => verbosity = VInt 3
      | CastBallotOperation_run _ an_address return_bb =>
          an_address = VStr "123, Main Street, Concord, Massachusetts" /\
          return_bb = VBool true
      | _ => False
      end)
    (calls_of (new_events st (get_empty_ballot guid st).2)) /\
  (forall edf w1 operation w2,
     vtp (Common_get_guid_based_edf_dir (VStr guid)) (world st) = (inr edf, w1) ->
     vtp (CastBallotOperation edf (VInt 3)) w1 = (inr operation, w2) ->
     (get_empty_ballot guid st).1
       = relay (vtp (CastBallotOperation_run operation
                       (VStr "123, Main Street, Concord, Massachusetts")
                       (VBool true)) w2).1) /\
  (forall st2, _MOCK_MODE st2 = false -> world st2 = world st ->
     (get_empty_ballot guid st2).1 = (get_empty_ballot guid st).1).
Proof.
  intros Hm. split; [|split].
  - unfold_gateway; simpl; rewrite Hm; simpl.
    repeat step_vtp; tidy_trace; repeat constructor.
  - intros edf w1 operation w2 Hres Hop.
    unfold_gateway; simpl; rewrite Hm; simpl.
    rewrite Hres; simpl. unfold _VERBOSITY, _ADDRESS. rewrite Hop; simpl.
    step_vtp; reflexivity.
  - intros st2 Hm2 Hw. apply get_empty_ballot_depends; congruence.
Qed.

(** C10, as the code has it.  In live mode, when the caller's mapping
    lacks one of the keys the endpoint subscripts ("ballot-check",
    "vote-index" for [verify_ballot_check]; "verbosity",
    "contest-uids", "track-contests" for [tally_election_check]), the
    operation's [run] is never called and the endpoint fails.  The
    workspace is resolved, and the operation built, before the
    subscript is reached: the failure is the KeyError of the first
    missing key unless one of these earlier calls raised, and then it
    is what that call raised.  When no key is missing, no KeyError is
    raised. *)
Theorem missing_key_live (rq : request) st :
  _MOCK_MODE st = false ->
  let r := (serve rq st).1 in
  let evs := new_events st (serve rq st).2 in
  (forall k,
     first_missing (required_keys rq) (incoming_json_of rq) = Some k ->
     Forall (fun c => is_run c = false) (calls_of evs) /\
     (r = inl (KeyError k) \/
      exists c e,
        is_run c = false /\ EvCall c (inl e) ∈ evs /\ r = inl (VtpError e))) /\
  (first_missing (required_keys rq) (incoming_json_of rq) = None ->
   forall k, r <> inl (KeyError k)).
Proof.
  intros Hm r evs. subst r evs. split.
  - intros k Hk. destruct rq; simpl in Hk; try discriminate;
      unfold_gateway; simpl; rewrite Hm; simpl;
      repeat first
        [ step_vtp
        | match goal with
          | |- context [@lookup string value _ _ ?key ?d] =>
              let K := fresh "K" in
              destruct (d !! key) eqn:K; rewrite ?K in Hk; simpl in *
          end ];
      try discriminate; tidy_trace.
    all: split; [ repeat constructor | ].
    all: first
      [ left; congruence
      | right; do 2 eexists; split; [| split; [ pick_elem | reflexivity ] ];
        reflexivity ].
  - intros Hnone k. destruct rq; simpl in Hnone;
      unfold_gateway; simpl; rewrite Hm; simpl;
      repeat first
        [ step_vtp
        | match goal with
          | |- context [@lookup string value _ _ ?key ?d] =>
              let K := fresh "K" in
              destruct (d !! key) eqn:K; rewrite ?K in Hnone; simpl in *
          end ];
      try discriminate.
Qed.

End Properties.

(** * The gateway on the small deployment *)

Module Town.
Import Deployment.

(** ** The deployment keeps the contract of VoteTrackerPlus *)

Lemma store_blank_ballot_reads c (w : store) :
  is_blank_ballot_call c = true -> (vtp c w).2 = w.
Proof.
  destruct c; simpl; try discriminate; intros _; try reflexivity.
  destruct guid; try reflexivity. by destruct (bool_decide _).
Qed.

Lemma store_run_registers self flag (w : store) g w' :
  vtp (SetupVtpDemoOperation_run self flag) w = (inr (VStr g), w') ->
  g ∈ workspaces w'.
Proof.
  simpl. destruct (unused w) as [|g0 gs]; intros Hrun; inversion Hrun; subst.
  simpl. apply elem_of_cons. by left.
Qed.

Lemma store_enumerates (w : store) :
  (vtp SetupVtpDemoOperation_get_all_guid_workspaces w).1
    = inr (VList (VStr <$> workspaces w)).
Proof. reflexivity. Qed.

(** ** Runs *)

(** Mock mode, with the two mock files of [town]: the five endpoints
    answer with the mock data although [stranger] has no workspace. *)
Lemma mock_mode_answers_witness :
  _MOCK_MODE (mock town) = true /\
  (get_vote_store_id (mock town)).1
    = inr (VStr "01d963fd74100ee3f36428740a8efd8afd781839") /\
  (get_empty_ballot stranger (mock town)).1 = inr (VDict ∅) /\
  (cast_ballot stranger ∅ (mock town)).1
    = inr (VTuple [VList [VList [VStr "a"; VStr "b"]; VList [VStr "c"; VStr "d"]];
                   VInt 26]) /\
  (verify_ballot_check stranger ∅ (mock town)).1 = inr (VStr "Hello World") /\
  (tally_election_check stranger ∅ (mock town)).1 = inr (VStr "Good Morning").
Proof.
  split; [reflexivity|].
  destruct (mock_mode_answers (mock town)
              "{}" (VDict ∅)
              ("a,b" ++ String "010"%char "c,d") [["a"; "b"]; ["c"; "d"]]
              eq_refl ltac:(by vm_compute) ltac:(by vm_compute)
              ltac:(by vm_compute) ltac:(by vm_compute))
    as (Hid & Hbb & Hcb & Hv & Ht).
  exact (conj Hid (conj (Hbb stranger) (conj (Hcb stranger ∅)
           (conj (Hv stranger ∅) (Ht stranger ∅))))).
Defined.

(** A session served in live mode: the flag is still off afterwards,
    and the first thing [cast_ballot] did was to read it. *)
Lemma mock_mode_read_first_never_written_witness :
  _MOCK_MODE
    (serve_all [GetVoteStoreId; GetAllGuidWorkspaces; GetEmptyBallot resident;
                CastBallot resident ∅; VerifyBallotCheck stranger ∅]
       (live town)).2 = false /\
  exists evs,
    new_events (live town) (serve (CastBallot resident ∅) (live town)).2
      = EvMockMode false :: evs.
Proof.
  destruct (mock_mode_read_first_never_written
              [GetVoteStoreId; GetAllGuidWorkspaces; GetEmptyBallot resident;
               CastBallot resident ∅; VerifyBallotCheck stranger ∅]
              (live town)) as [Hflag Hread].
  split; [exact Hflag|].
  apply Forall_forall with (x := CastBallot resident ∅) in Hread.
  - exact (Hread (live town) eq_refl).
  - repeat (apply elem_of_cons; first [ left; reflexivity | right ]).
Defined.

(** The bypass at the five endpoints, for [stranger]. *)
Lemma mock_mode_bypass_witness :
  calls_of (new_events (mock town)
              (serve (CastBallot stranger ∅) (mock town)).2) = [] /\
  world (serve (CastBallot stranger ∅) (mock town)).2 = town /\
  (serve (CastBallot stranger ∅) (mock empty_town)).1
    = (serve (CastBallot stranger ∅) (mock town)).1.
Proof.
  destruct (mock_mode_bypass (CastBallot stranger ∅) (mock town)
              eq_refl eq_refl) as (Hcalls & Hworld & Hsame).
  exact (conj Hcalls (conj Hworld
           (Hsame (mock empty_town) eq_refl eq_refl eq_refl))).
Defined.

(** C1 (the operation that breaks it).  In mock mode
    [get_all_guid_workspaces] still calls
    [SetupVtpDemoOperation.get_all_guid_workspaces], and what it
    returns is read from the live ElectionData: two deployments that
    differ only in their guid workspaces give different answers. *)
Example get_all_guid_workspaces_mock_mode_reaches_vtp :
  _MOCK_MODE (mock town) = true /\
  calls_of (trace (get_all_guid_workspaces (mock town)).2)
    = [SetupVtpDemoOperation_get_all_guid_workspaces] /\
  (get_all_guid_workspaces (mock town)).1 = inr (VList [VStr resident]) /\
  (get_all_guid_workspaces (mock empty_town)).1 = inr (VList []).
Proof. repeat split. Qed.

(** Live mode: [stranger] resolves to no workspace and the four
    endpoints fail with that exception; in mock mode they do not. *)
Lemma unknown_session_live_only_witness :
  (vtp (Common_get_guid_based_edf_dir (VStr stranger)) town).1
    = inl (UnknownSession (VStr stranger)) /\
  (get_empty_ballot stranger (live town)).1
    = inl (VtpError (UnknownSession (VStr stranger))) /\
  (cast_ballot stranger ∅ (live town)).1
    = inl (VtpError (UnknownSession (VStr stranger))) /\
  (verify_ballot_check stranger ∅ (live town)).1
    = inl (VtpError (UnknownSession (VStr stranger))) /\
  (tally_election_check stranger ∅ (live town)).1
    = inl (VtpError (UnknownSession (VStr stranger))) /\
  (get_empty_ballot stranger (mock town)).1
    <> inl (VtpError (UnknownSession (VStr stranger))).
Proof.
  destruct (unknown_session_live_only (live town) stranger ∅ ∅) as [Hlive _].
  destruct (unknown_session_live_only (mock town) stranger ∅ ∅) as [_ Hmock].
  destruct (Hlive (UnknownSession (VStr stranger)) eq_refl eq_refl)
    as (Hbb & Hcb & Hv & Ht).
  destruct (Hmock (UnknownSession (VStr stranger)) eq_refl) as (Hbb' & _).
  exact (conj eq_refl (conj Hbb (conj Hcb (conj Hv (conj Ht Hbb'))))).
Defined.

(** Live mode: casting a ballot for [resident] returns what the
    AcceptBallotOperation run returned, after calls that are all
    different. *)
Lemma live_mode_relay_witness :
  _MOCK_MODE (live town) = false /\
  NoDup (calls_of (new_events (live town)
                     (serve (CastBallot resident ∅) (live town)).2)) /\
  exists c,
    is_operation c = true /\
    EvCall c (inr (ballot_check 0))
      ∈ new_events (live town) (serve (CastBallot resident ∅) (live town)).2.
Proof.
  destruct (live_mode_relay (CastBallot resident ∅) (live town) eq_refl)
    as (_ & _ & Hnodup & _ & Hvalue & _).
  exact (conj eq_refl (conj Hnodup
           (Hvalue (ballot_check 0) ltac:(by vm_compute)))).
Defined.

Lemma cast_ballot_live_witness :
  _MOCK_MODE (live town) = false /\
  vtp (Common_get_guid_based_edf_dir (VStr resident)) town
    = (inr resident_edf, town) /\
  (cast_ballot resident ∅ (live town)).1 = inr (ballot_check 0) /\
  ballots (world (cast_ballot resident ∅ (live town)).2) = [VDict ∅].
Proof.
  destruct (cast_ballot_live (live town) resident ∅ resident_edf town
              (instance_of "AcceptBallotOperation"
                 [("election_data_dir", resident_edf); ("verbosity", VInt 3)])
              town eq_refl ltac:(by vm_compute) ltac:(by vm_compute))
    as (_ & Hout & Hworld & _).
  split; [reflexivity|]. split; [by vm_compute|]. split.
  - exact Hout.
  - rewrite Hworld. reflexivity.
Defined.

Lemma get_empty_ballot_twice_witness :
  (forall c (w : store), is_blank_ballot_call c = true -> (vtp c w).2 = w) /\
  (get_empty_ballot resident (get_empty_ballot resident (live town)).2).1
    = (get_empty_ballot resident (live town)).1.
Proof.
  split; [exact store_blank_ballot_reads|].
  exact (get_empty_ballot_twice (live town) resident store_blank_ballot_reads).
Defined.

Lemma issued_guid_is_enumerated_witness :
  (get_vote_store_id (live town)).1
    = inr (VStr "c0ffee11c0ffee22c0ffee33c0ffee44c0ffee55") /\
  exists guids,
    (get_all_guid_workspaces (get_vote_store_id (live town)).2).1
      = inr (VList guids) /\
    VStr "c0ffee11c0ffee22c0ffee33c0ffee44c0ffee55" ∈ guids.
Proof.
  split; [by vm_compute|].
  exact (issued_guid_is_enumerated workspaces (live town)
           "c0ffee11c0ffee22c0ffee33c0ffee44c0ffee55"
           (get_vote_store_id (live town)).2
           store_run_registers store_enumerates eq_refl
           ltac:(by vm_compute)).
Defined.

Lemma get_empty_ballot_live_witness :
  _MOCK_MODE (live town) = false /\
  (get_empty_ballot resident (live town)).1 = inr blank_ballot.
Proof.
  destruct (get_empty_ballot_live (live town) resident eq_refl)
    as (_ & Hrun & _).
  split; [reflexivity|].
  exact (Hrun resident_edf town
           (instance_of "CastBallotOperation"
              [("election_data_dir", resident_edf); ("verbosity", VInt 3)])
           town ltac:(by vm_compute) ltac:(by vm_compute)).
Defined.

(** Live mode, [resident], an empty mapping: the workspace resolves,
    the operation is built, and the subscript raises KeyError. *)
Lemma missing_key_live_witness :
  _MOCK_MODE (live town) = false /\
  (verify_ballot_check resident ∅ (live town)).1 = inl (KeyError "ballot-check") /\
  (tally_election_check resident ∅ (live town)).1 = inl (KeyError "verbosity") /\
  Forall (fun c => is_run c = false)
    (calls_of (new_events (live town)
                 (serve (VerifyBallotCheck resident ∅) (live town)).2)).
Proof.
  destruct (missing_key_live (VerifyBallotCheck resident ∅) (live town) eq_refl)
    as [Hmissing _].
  destruct (Hmissing "ballot-check" ltac:(by vm_compute)) as [Hnorun _].
  split; [reflexivity|]. split; [by vm_compute|]. split; [by vm_compute|].
  exact Hnorun.
Defined.

(** C10 as it was stated fails: live mode, an empty mapping, and a
    session identifier without a workspace.  Both required-key
    endpoints fail with the exception of the workspace resolution, not
    with a KeyError. *)
Lemma missing_key_unresolved_counterexample :
  _MOCK_MODE (live town) = false /\
  (∅ : gmap string value) !! "ballot-check" = None /\
  (∅ : gmap string value) !! "verbosity" = None /\
  (verify_ballot_check stranger ∅ (live town)).1
    = inl (VtpError (UnknownSession (VStr stranger))) /\
  (tally_election_check stranger ∅ (live town)).1
    = inl (VtpError (UnknownSession (VStr stranger))) /\
  (forall k, (verify_ballot_check stranger ∅ (live town)).1 <> inl (KeyError k)) /\
  (forall k, (tally_election_check stranger ∅ (live town)).1 <> inl (KeyError k)).
Proof.
  split; [reflexivity|]. split; [reflexivity|]. split; [reflexivity|].
  split; [by vm_compute|]. split; [by vm_compute|].
  split; intros k; vm_compute; discriminate.
Qed.

End Town.

(** * Sessions, failures and the routing of payloads *)

Section Sessions.
Context `{Platform W vtp_exn}.

#[local] Abbreviation state := (state W vtp_exn).

Implicit Types (st : state) (vote_store_id guid : string).
Implicit Types (incoming_json cast_ballot_json : gmap string value).

Ltac unfold_gateway :=
  unfold serve, get_vote_store_id, get_empty_ballot, get_all_guid_workspaces,
    cast_ballot, verify_ballot_check, tally_election_check,
    mock_get_cast_ballot, mock_get_ballot_check,
    mbind, M_bind, mret, M_ret, mock_mode, invoke, with_open, subscript,
    raise, emit in *.

Ltac step :=
  match goal with
  | |- context [vtp ?c ?w] =>
      let E := fresh "E" in
      destruct (vtp c w) as [[?e|?v] ?w1] eqn:E; simpl in *
  | |- context [@lookup string value _ _ ?k ?d] =>
      let K := fresh "K" in
      destruct (d !! k) as [?x|] eqn:K; simpl in *
  | |- context [read_text ?w ?f] =>
      let R := fresh "R" in
      destruct (read_text w f) as [?text|] eqn:R; simpl in *
  | |- context [json_loads ?t] =>
      let J := fresh "J" in destruct (json_loads t) eqn:J; simpl in *
  | |- context [csv_rows ?t] =>
      let J := fresh "J" in destruct (csv_rows t) eqn:J; simpl in *
  end.

Ltac tidy_trace :=
  repeat rewrite <- app_assoc; simpl;
  unfold new_events; simpl; repeat rewrite drop_app_length.

Ltac pick :=
  repeat (apply elem_of_cons; first [ left; reflexivity | right ]).

Ltac split_elem :=
  repeat match goal with
  | Hin : _ ∈ [] |- _ => by apply elem_of_nil in Hin
  | Hin : _ ∈ _ :: _ |- _ =>
      apply elem_of_cons in Hin; destruct Hin as [Hin|Hin];
      [ try discriminate; try (inversion Hin; subst; clear Hin) | ]
  end.

(** ** The trace only grows *)

Lemma serve_appends rq st :
  trace (serve rq st).2 = (trace st ++ new_events st (serve rq st).2)%list.
Proof.
  destruct rq; unfold_gateway; simpl;
    destruct (_MOCK_MODE st); simpl; repeat step; tidy_trace; reflexivity.
Qed.

Lemma serve_all_appends rqs : forall st,
  trace (serve_all rqs st).2
    = (trace st ++ new_events st (serve_all rqs st).2)%list.
Proof.
  induction rqs as [|rq rqs IH]; intros st; simpl.
  - unfold new_events. by rewrite drop_all, app_nil_r.
  - pose proof (serve_appends rq st) as Hrq.
    destruct (serve rq st) as [r st1]; simpl in *.
    specialize (IH st1).
    destruct (serve_all rqs st1) as [rs st2]; simpl in *.
    set (evs1 := new_events st st1) in *.
    set (evs2 := new_events st1 st2) in *.
    unfold new_events. rewrite IH, Hrq.
    by rewrite <- app_assoc, drop_app_length.
Qed.

Lemma new_events_cons rq rqs st :
  new_events st (serve_all (rq :: rqs) st).2
    = (new_events st (serve rq st).2
         ++ new_events (serve rq st).2 (serve_all rqs (serve rq st).2).2)%list.
Proof.
  simpl. pose proof (serve_appends rq st) as Hrq.
  destruct (serve rq st) as [r st1]; simpl in *.
  pose proof (serve_all_appends rqs st1) as Hall.
  destruct (serve_all rqs st1) as [rs st2]; simpl in *.
  set (evs1 := new_events st st1) in *.
  set (evs2 := new_events st1 st2) in *.
  unfold new_events. rewrite Hall, Hrq.
  by rewrite <- app_assoc, drop_app_length.
Qed.

(** The outcome of an operation, the world it leaves and what it does
    are functions of the flag, the world and the arguments: the module
    keeps nothing between two requests. *)
Lemma serve_depends rq st1 st2 :
  _MOCK_MODE st1 = _MOCK_MODE st2 -> world st1 = world st2 ->
  (serve rq st1).1 = (serve rq st2).1 /\
  world (serve rq st1).2 = world (serve rq st2).2 /\
  new_events st1 (serve rq st1).2 = new_events st2 (serve rq st2).2.
Proof.
  intros Hm Hw. destruct rq; unfold_gateway; simpl; rewrite Hm, Hw;
    destruct (_MOCK_MODE st2); simpl; repeat step; tidy_trace;
    repeat split; reflexivity.
Qed.

(** ** What a session may do *)

Lemma serve_event_ok rq st :
  Forall (session_event_ok (_MOCK_MODE st)) (new_events st (serve rq st).2).
Proof.
  destruct rq; unfold_gateway; simpl;
    destruct (_MOCK_MODE st) eqn:Hm; simpl; repeat step; tidy_trace;
    repeat (apply Forall_cons; split; [simpl; auto|]);
    apply Forall_nil_2.
Qed.

(** X2. Whatever requests a process serves, and whether they succeed or
    raise: every read of [_MOCK_MODE] returns the value the process
    started with; a file is opened only in mock mode, and then it is
    the blank-ballot file or the receipts file (never the cast-ballot
    file); a call into VoteTrackerPlus is made only in live mode, but
    for the enumeration of [get_all_guid_workspaces]. *)
Theorem session_events_ok (rqs : list request) st :
  Forall (session_event_ok (_MOCK_MODE st))
    (new_events st (serve_all rqs st).2).
Proof.
  revert st. induction rqs as [|rq rqs IH]; intros st.
  - simpl. unfold new_events. rewrite drop_all. constructor.
  - rewrite new_events_cons. apply Forall_app. split.
    + apply serve_event_ok.
    + specialize (IH (serve rq st).2).
      by rewrite serve_mock_mode in IH.
Qed.

(** ** Mock mode is stateless *)

Lemma mock_endpoint_frame rq st :
  is_endpoint rq = true -> _MOCK_MODE st = true ->
  calls_of (new_events st (serve rq st).2) = [] /\
  world (serve rq st).2 = world st.
Proof.
  intros Hrq Hm. destruct rq; try discriminate; unfold_gateway; simpl;
    rewrite Hm; simpl; repeat step; tidy_trace; split; reflexivity.
Qed.

Lemma calls_of_app (evs1 evs2 : list (event vtp_exn)) :
  calls_of (evs1 ++ evs2) = (calls_of evs1 ++ calls_of evs2)%list.
Proof. unfold calls_of. apply omap_app. Qed.

(** X3. A mock-mode session of numbered endpoints, however long: no
    request reaches VoteTrackerPlus, the world is left as it was, and
    every answer is the answer the same request gets when it is served
    first.  Earlier requests, a cast ballot included, change nothing
    for later ones. *)
Theorem mock_session_stateless (rqs : list request) st :
  _MOCK_MODE st = true ->
  Forall (fun rq => is_endpoint rq = true) rqs ->
  (serve_all rqs st).1 = (fun rq => (serve rq st).1) <$> rqs /\
  world (serve_all rqs st).2 = world st /\
  calls_of (new_events st (serve_all rqs st).2) = [].
Proof.
  intros Hm Hrqs. revert st Hm.
  induction Hrqs as [|rq rqs Hrq _ IH]; intros st Hm.
  - simpl. unfold new_events. by rewrite drop_all.
  - rewrite new_events_cons, calls_of_app.
    destruct (mock_endpoint_frame rq st Hrq Hm) as [Hcalls Hworld].
    pose proof (serve_mock_mode rq st) as Hflag. rewrite Hm in Hflag.
    destruct (IH (serve rq st).2 Hflag) as (Hans & Hw & Hc).
    rewrite Hcalls, Hc. simpl.
    destruct (serve rq st) as [r st1] eqn:E1; simpl in *.
    destruct (serve_all rqs st1) as [rs st2] eqn:E2; simpl in *.
    split; [|split; [congruence | reflexivity]].
    f_equal. rewrite Hans. apply list_fmap_ext. intros i rq' _.
    apply serve_depends; congruence.
Qed.

(** ** Failures in mock mode *)


(** X5. The two helpers marked mock only do not look at [_MOCK_MODE]:
    in either mode each opens its own file and nothing else, calls
    nothing in VoteTrackerPlus, leaves the world and the flag alone,
    and its outcome is the same in any two states over the same world.
    When [mock_get_ballot_check] succeeds it returns a pair: rows of
    strings and the index 26; this is the answer of [cast_ballot] in
    mock mode. *)
Theorem mock_helpers_ignore_mode st :
  new_events st (mock_get_cast_ballot st).2
    = [EvOpen "mock-data/cast-ballot.json"] /\
  new_events st (mock_get_ballot_check st).2
    = [EvOpen "mock-data/receipts.26.csv"] /\
  world (mock_get_cast_ballot st).2 = world st /\
  world (mock_get_ballot_check st).2 = world st /\
  _MOCK_MODE (mock_get_cast_ballot st).2 = _MOCK_MODE st /\
  _MOCK_MODE (mock_get_ballot_check st).2 = _MOCK_MODE st /\
  (forall st2, world st2 = world st ->
     (mock_get_cast_ballot st2).1 = (mock_get_cast_ballot st).1 /\
     (mock_get_ballot_check st2).1 = (mock_get_ballot_check st).1) /\
  (forall v, (mock_get_ballot_check st).1 = inr v ->
     exists rows : list (list string),
       v = VTuple [VList ((fun row => VList (VStr <$> row)) <$> rows); VInt 26]) /\
  (forall guid cast_ballot_json, _MOCK_MODE st = true ->
     (cast_ballot guid cast_ballot_json st).1 = (mock_get_ballot_check st).1).
Proof.
  repeat match goal with |- _ /\ _ => split end.
  1-6: unfold_gateway; simpl; repeat step; tidy_trace; reflexivity.
  - intros st2 Hw. unfold_gateway; simpl. rewrite Hw.
    split; repeat step; reflexivity.
  - intros v. unfold_gateway; simpl; repeat step; intros Hv;
      inversion Hv; subst. eexists; reflexivity.
  - intros guid b Hm. unfold_gateway; simpl; rewrite Hm; simpl.
    repeat step; reflexivity.
Qed.

(** ** The caller's mapping *)

(** X6. Of the caller's mapping only the subscripted keys count: two
    mappings with the same entries for "ballot-check" and "vote-index"
    make [verify_ballot_check] do the same calls with the same outcome,
    and likewise for [tally_election_check] and "verbosity",
    "contest-uids", "track-contests".  Any other entry is ignored, in
    both modes. *)
Theorem only_subscripted_keys_count st guid
    (json1 json2 : gmap string value) :
  (json1 !! "ballot-check" = json2 !! "ballot-check" ->
   json1 !! "vote-index" = json2 !! "vote-index" ->
   verify_ballot_check guid json1 st = verify_ballot_check guid json2 st) /\
  (json1 !! "verbosity" = json2 !! "verbosity" ->
   json1 !! "contest-uids" = json2 !! "contest-uids" ->
   json1 !! "track-contests" = json2 !! "track-contests" ->
   tally_election_check guid json1 st = tally_election_check guid json2 st).
Proof.
  split.
  - intros H1 H2. unfold_gateway. by rewrite H1, H2.
  - intros H1 H2 H3. unfold_gateway. by rewrite H1, H2, H3.
Qed.

(** When the workspace resolves and the operation is built, and the
    two keys are there, [verify_ballot_check] is the run on their
    values. *)
Lemma verify_ballot_check_runs st guid incoming_json
    receipt_data row edf w1 operation w2 :
  _MOCK_MODE st = false ->
  incoming_json !! "ballot-check" = Some receipt_data ->
  incoming_json !! "vote-index" = Some row ->
  vtp (Common_get_guid_based_edf_dir (VStr guid)) (world st) = (inr edf, w1) ->
  vtp (VerifyBallotReceiptOperation edf) w1 = (inr operation, w2) ->
  (verify_ballot_check guid incoming_json st).1
    = relay (vtp (VerifyBallotReceiptOperation_run operation receipt_data row
                    (VBool true)) w2).1.
Proof.
  intros Hm Hbc Hvi Hres Hop. unfold_gateway; simpl; rewrite Hm; simpl.
  rewrite Hres; simpl. rewrite Hop; simpl. rewrite Hbc, Hvi; simpl.
  step; reflexivity.
Qed.

(** X7. In live mode the values of the caller's mapping reach
    VoteTrackerPlus as they are.  Every run of the
    VerifyBallotReceiptOperation gets the "ballot-check" entry as
    [receipt_data], the "vote-index" entry as [row], and [cvr=True].
    The TallyContestsOperation is built with the caller's "verbosity"
    (not the backend's own 3) and run with the "contest-uids" and
    "track-contests" entries.  No other call is made besides the
    resolution of the workspace, and when that and the construction
    succeed the outcome is the outcome of the run. *)
Theorem payload_reaches_run st guid incoming_json :
  _MOCK_MODE st = false ->
  Forall (fun c =>
      match c with
      | Common_get_guid_based_edf_dir _ | VerifyBallotReceiptOperation _ => True
      | VerifyBallotReceiptOperation_run _ receipt_data row cvr =>
          incoming_json !! "ballot-check" = Some receipt_data /\
          incoming_json !! "vote-index" = Some row /\
          cvr = VBool true
      | _ => False
      end)
    (calls_of (new_events st (verify_ballot_check guid incoming_json st).2)) /\
  Forall (fun c =>
      match c with
      | Common_get_guid_based_edf_dir _ => True
      | TallyContestsOperation _ verbosity =>
          incoming_json !! "verbosity" = Some verbosity
      | TallyContestsOperation_run _ contest_uid track_contests =>
          incoming_json !! "contest-uids" = Some contest_uid /\
          incoming_json !! "track-contests" = Some track_contests
      | _ => False
      end)
    (calls_of (new_events st (tally_election_check guid incoming_json st).2)) /\
  (forall receipt_data row edf w1 operation w2,
     incoming_json !! "ballot-check" = Some receipt_data ->
     incoming_json !! "vote-index" = Some row ->
     vtp (Common_get_guid_based_edf_dir (VStr guid)) (world st) = (inr edf, w1) ->
     vtp (VerifyBallotReceiptOperation edf) w1 = (inr operation, w2) ->
     (verify_ballot_check guid incoming_json st).1
       = relay (vtp (VerifyBallotReceiptOperation_run operation receipt_data
                       row (VBool true)) w2).1) /\
  (forall verbosity contest_uid track_contests edf w1 operation w2,
     incoming_json !! "verbosity" = Some verbosity ->
     incoming_json !! "contest-uids" = Some contest_uid ->
     incoming_json !! "track-contests" = Some track_contests ->
     vtp (Common_get_guid_based_edf_dir (VStr guid)) (world st) = (inr edf, w1) ->
     vtp (TallyContestsOperation edf verbosity) w1 = (inr operation, w2) ->
     (tally_election_check guid incoming_json st).1
       = relay (vtp (TallyContestsOperation_run operation contest_uid
                       track_contests) w2).1).
Proof.
  intros Hm. repeat match goal with |- _ /\ _ => split end.
  - unfold_gateway; simpl; rewrite Hm; simpl; repeat step; tidy_trace;
      repeat (apply Forall_cons; split; [simpl; auto|]); apply Forall_nil_2.
  - unfold_gateway; simpl; rewrite Hm; simpl; repeat step; tidy_trace;
      repeat (apply Forall_cons; split; [simpl; auto|]); apply Forall_nil_2.
  - intros. by eapply verify_ballot_check_runs.
  - intros v cu tc edf w1 op w2 Hv Hcu Htc Hres Hop.
    unfold_gateway; simpl; rewrite Hm; simpl.
    rewrite Hres; simpl. rewrite Hv; simpl. rewrite Hop; simpl.
    rewrite Hcu, Htc; simpl. step; reflexivity.
Qed.

(** ** Workspaces and fixed arguments *)

(** X8. In live mode an endpoint works on one workspace, the one its
    first call yields: [Common.get_generic_ro_edf_dir] for
    [get_vote_store_id], [Common.get_guid_based_edf_dir] of the
    caller's session identifier for the other four.  That call is made
    right after the flag is read, no other workspace is looked up,
    every operation class is instantiated on the directory that call
    returned, and every [run] is called on an instance that such an
    instantiation returned. *)
Theorem one_workspace_per_request (rq : request) st wc :
  _MOCK_MODE st = false ->
  workspace_call rq = Some wc ->
  let evs := new_events st (serve rq st).2 in
  (exists r rest, evs = EvMockMode false :: EvCall wc r :: rest) /\
  (forall c r, EvCall c r ∈ evs ->
     is_resolve c = true \/ c = Common_get_generic_ro_edf_dir -> c = wc) /\
  (forall c r edf, EvCall c r ∈ evs ->
     election_data_dir_of c = Some edf -> EvCall wc (inr edf) ∈ evs) /\
  (forall c r self, EvCall c r ∈ evs ->
     self_of c = Some self ->
     exists c', is_Some (election_data_dir_of c') /\ EvCall c' (inr self) ∈ evs).
Proof.
  intros Hm Hwc evs. subst evs.
  destruct rq; simpl in Hwc; inversion Hwc; subst; clear Hwc;
    unfold_gateway; simpl; rewrite Hm; simpl; repeat step; tidy_trace.
  all: repeat match goal with |- _ /\ _ => split end.
  all: try (do 2 eexists; reflexivity).
  all: try (intros cc rr HHin HHc; destruct HHc as [HHc|HHc];
            split_elem; simpl in *; congruence).
  all: try solve [ intros cc rr ee HHin HHc; split_elem; simpl in *;
                   try discriminate; inversion HHc; subst; pick ].
  all: intros cc rr ss HHin HHc; split_elem; simpl in *;
         try discriminate; inversion HHc; subst;
         eexists; split; [| pick ]; simpl; eauto.
Qed.

(** X9. The arguments the backend fixes itself, in live mode and for
    every operation: the Setup, Cast and Accept operations are built
    with verbosity 3; the provisioning run gets
    [guid_client_store=True], the blank-ballot run the address 123,
    Main Street, Concord, Massachusetts and [return_bb=True], the
    accept run [merge_contests=True] and the receipt run [cvr=True];
    [get_vote_store_id] and [get_all_guid_workspaces] look up no guid
    workspace. *)
Theorem fixed_arguments (rq : request) st :
  _MOCK_MODE st = false ->
  Forall (fun c =>
      match c with
      | SetupVtpDemoOperation _ verbosity
      | CastBallotOperation _ verbosity
      | AcceptBallotOperation _ verbosity => verbosity = VInt 3
      | SetupVtpDemoOperation_run _ guid_client_store =>
          guid_client_store = VBool true
      | CastBallotOperation_run _ an_address return_bb =>
          an_address = VStr "123, Main Street, Concord, Massachusetts" /\
          return_bb = VBool true
      | AcceptBallotOperation_run _ _ merge_contests =>
          merge_contests = VBool true
      | VerifyBallotReceiptOperation_run _ _ _ cvr => cvr = VBool true
      | Common_get_guid_based_edf_dir _ =>
          rq <> GetVoteStoreId /\ rq <> GetAllGuidWorkspaces
      | _ => True
      end)
    (calls_of (new_events st (serve rq st).2)).
Proof.
  intros Hm. destruct rq; unfold_gateway; simpl; rewrite Hm; simpl;
    repeat step; tidy_trace;
    repeat (apply Forall_cons; split; [simpl; auto|]); apply Forall_nil_2.
Qed.

(** ** Casting, then checking the receipt *)

(** X10. In live mode, let [cast_ballot] return a pair (ballot-check,
    voter-index).  The pair is what the AcceptBallotOperation run
    returned, the process is still in live mode, and a
    [verify_ballot_check] whose mapping carries the two values under
    "ballot-check" and "vote-index" hands exactly them to the
    VerifyBallotReceiptOperation run on the workspace of the session;
    its outcome is the outcome of that run. *)
Theorem cast_then_verify st guid cast_ballot_json ballot_check voter_index
    st1 incoming_json edf w1 operation w2 :
  _MOCK_MODE st = false ->
  cast_ballot guid cast_ballot_json st
    = (inr (VTuple [ballot_check; voter_index]), st1) ->
  incoming_json !! "ballot-check" = Some ballot_check ->
  incoming_json !! "vote-index" = Some voter_index ->
  vtp (Common_get_guid_based_edf_dir (VStr guid)) (world st1) = (inr edf, w1) ->
  vtp (VerifyBallotReceiptOperation edf) w1 = (inr operation, w2) ->
  (exists self,
     last (new_events st st1)
       = Some (EvCall (AcceptBallotOperation_run self (VDict cast_ballot_json)
                         (VBool true))
                 (inr (VTuple [ballot_check; voter_index])))) /\
  _MOCK_MODE st1 = false /\
  (verify_ballot_check guid incoming_json st1).1
    = relay (vtp (VerifyBallotReceiptOperation_run operation ballot_check
                    voter_index (VBool true)) w2).1.
Proof.
  intros Hm Hcast Hbc Hvi Hres Hop.
  assert (Hm1 : _MOCK_MODE st1 = false).
  { pose proof (serve_mock_mode (CastBallot guid cast_ballot_json) st) as Hf.
    simpl in Hf. rewrite Hcast in Hf. simpl in Hf. congruence. }
  split; [|split; [exact Hm1|]].
  - revert Hcast. unfold_gateway; simpl; rewrite Hm; simpl.
    repeat step; intros Hcast; inversion Hcast; subst; tidy_trace.
    eexists; reflexivity.
  - by eapply verify_ballot_check_runs.
Qed.

End Sessions.

(** * Sessions on the small deployment *)

Module TownSessions.
Import Deployment.

(** A mock-mode session for a session identifier without workspace. *)
Lemma mock_session_stateless_witness :
  let rqs := [CastBallot stranger ∅; GetEmptyBallot stranger;
              VerifyBallotCheck stranger ∅; GetVoteStoreId;
              CastBallot stranger ∅] in
  (serve_all rqs (mock town)).1 = (fun rq => (serve rq (mock town)).1) <$> rqs /\
  world (serve_all rqs (mock town)).2 = town /\
  calls_of (new_events (mock town) (serve_all rqs (mock town)).2) = [].
Proof.
  intros rqs.
  apply (mock_session_stateless rqs (mock town) eq_refl).
  subst rqs. repeat (apply Forall_cons; split; [reflexivity|]).
  apply Forall_nil_2.
Defined.


(** The helper reads the cast-ballot file in live mode too. *)
Lemma mock_helpers_ignore_mode_witness :
  (mock_get_cast_ballot (live torn_town)).1 = inr (VList []) /\
  new_events (live torn_town) (mock_get_cast_ballot (live torn_town)).2
    = [EvOpen "mock-data/cast-ballot.json"] /\
  (mock_get_cast_ballot (mock torn_town)).1
    = (mock_get_cast_ballot (live torn_town)).1.
Proof.
  destruct (mock_helpers_ignore_mode (live torn_town))
    as (Hev & _ & _ & _ & _ & _ & Hsame & _).
  split; [by vm_compute|]. split; [exact Hev|].
  exact (proj1 (Hsame (mock torn_town) eq_refl)).
Defined.

(** An entry nobody asked for changes nothing. *)
Lemma only_subscripted_keys_count_witness :
  padded_receipt_json <> receipt_json /\
  verify_ballot_check resident padded_receipt_json (live town)
    = verify_ballot_check resident receipt_json (live town).
Proof.
  split.
  - intros Heq.
    assert (Hv : padded_receipt_json !! "voter" = receipt_json !! "voter")
      by (by rewrite Heq).
    vm_compute in Hv. discriminate.
  - exact (proj1 (only_subscripted_keys_count (live town) resident
                    padded_receipt_json receipt_json)
             ltac:(by vm_compute) ltac:(by vm_compute)).
Defined.

Lemma payload_reaches_run_witness :
  _MOCK_MODE (live town) = false /\
  (verify_ballot_check resident receipt_json (live town)).1
    = inr (VStr "receipt verified") /\
  (tally_election_check resident tally_json (live town)).1
    = inr (VStr "contests tallied").
Proof.
  destruct (payload_reaches_run (live town) resident receipt_json eq_refl)
    as (_ & _ & Hverify & _).
  destruct (payload_reaches_run (live town) resident tally_json eq_refl)
    as (_ & _ & _ & Htally).
  split; [reflexivity|]. split.
  - exact (Hverify (VList [VList [VStr "0001"; VStr "0002"]]) (VInt 0)
             resident_edf town
             (instance_of "VerifyBallotReceiptOperation"
                [("election_data_dir", resident_edf)])
             town ltac:(by vm_compute) ltac:(by vm_compute)
             ltac:(by vm_compute) ltac:(by vm_compute)).
  - exact (Htally (VInt 1) (VList [VStr "0001"]) (VBool false)
             resident_edf town
             (instance_of "TallyContestsOperation"
                [("election_data_dir", resident_edf); ("verbosity", VInt 1)])
             town ltac:(by vm_compute) ltac:(by vm_compute)
             ltac:(by vm_compute) ltac:(by vm_compute)
             ltac:(by vm_compute)).
Defined.

Lemma one_workspace_per_request_witness :
  _MOCK_MODE (live town) = false /\
  exists r rest,
    new_events (live town) (serve (CastBallot resident ∅) (live town)).2
      = EvMockMode false
          :: EvCall (Common_get_guid_based_edf_dir (VStr resident)) r :: rest.
Proof.
  split; [reflexivity|].
  exact (proj1 (one_workspace_per_request (CastBallot resident ∅) (live town)
                  (Common_get_guid_based_edf_dir (VStr resident))
                  eq_refl eq_refl)).
Defined.

Lemma fixed_arguments_witness :
  _MOCK_MODE (live town) = false /\
  SetupVtpDemoOperation_run
    (instance_of "SetupVtpDemoOperation"
       [("election_data_dir", VStr "/opt/VoteTrackerPlus/demo.01/mock-clients");
        ("verbosity", VInt 3)])
    (VBool true)
    ∈ calls_of (new_events (live town) (serve GetVoteStoreId (live town)).2) /\
  Forall (fun c => is_resolve c = false)
    (calls_of (new_events (live town) (serve GetVoteStoreId (live town)).2)).
Proof.
  pose proof (fixed_arguments GetVoteStoreId (live town) eq_refl) as Hfixed.
  split; [reflexivity|]. split.
  - vm_compute. repeat (apply elem_of_cons; first [ left; reflexivity | right ]).
  - eapply Forall_impl; [exact Hfixed|].
    intros c Hc. destruct c; try reflexivity.
    simpl in Hc. by destruct Hc as [Hc _].
Defined.

(** [resident] casts a ballot and has the receipt checked. *)
Lemma cast_then_verify_witness :
  (cast_ballot resident ∅ (live town)).1 = inr (ballot_check 0) /\
  (verify_ballot_check resident receipt_json
     (cast_ballot resident ∅ (live town)).2).1
    = inr (VStr "receipt verified").
Proof.
  pose (st1 := (cast_ballot resident ∅ (live town)).2).
  destruct (cast_then_verify (live town) resident ∅
              (VList [VList [VStr "0001"; VStr "0002"]]) (VInt 0)
              st1 receipt_json resident_edf (world st1)
              (instance_of "VerifyBallotReceiptOperation"
                 [("election_data_dir", resident_edf)])
              (world st1)
              eq_refl ltac:(by vm_compute) ltac:(by vm_compute)
              ltac:(by vm_compute) ltac:(by vm_compute)
              ltac:(by vm_compute))
    as (_ & _ & Hverify).
  split; [by vm_compute|]. exact Hverify.
Defined.

End TownSessions.
